(** * ProtFlow / Rosetta runner: score collection and artifact renaming

    A shallow embedding of [protflow/tools/rosetta.py]:
    [collect_scores], the clean-up branch of [Rosetta.run] and
    [clean_rosetta_scorefile], together with the Python string and
    file-system primitives they are written with. *)

From Stdlib Require Import List String Ascii Bool Arith ZArith Lia Permutation.
From Stdlib Require Import DecimalString DecimalNat.
Import ListNotations.
Local Open Scope list_scope.
Local Open Scope string_scope.

(** ** Python string and list primitives *)

Module Py.

(** [l[start:stop]] with Python's treatment of negative and
    out-of-range bounds. *)
Definition clamp (len i : Z) : Z :=
  if (i <? 0)%Z then Z.max 0 (i + len) else Z.min i len.

Definition slice {A} (l : list A) (start stop : Z) : list A :=
  let len := Z.of_nat (List.length l) in
  let a := clamp len start in
  let b := clamp len stop in
  firstn (Z.to_nat (b - a)) (skipn (Z.to_nat a) l).

(** [l[start:]] *)
Definition slice_from {A} (l : list A) (start : Z) : list A :=
  skipn (Z.to_nat (clamp (Z.of_nat (List.length l)) start)) l.

(** [s.split(sep)] for a one-character separator: never empty. *)
Fixpoint split (sep : ascii) (s : string) : list string :=
  match s with
  | EmptyString => [EmptyString]
  | String c s' =>
      if Ascii.eqb c sep then EmptyString :: split sep s'
      else match split sep s' with
           | t :: ts => String c t :: ts
           | [] => [String c EmptyString]
           end
  end.

(** [sep.join(l)] *)
Fixpoint join (sep : string) (l : list string) : string :=
  match l with
  | [] => EmptyString
  | [t] => t
  | t :: ts => t ++ sep ++ join sep ts
  end.

(** [s.replace(old, new)] for a non-empty [old]: non-overlapping
    occurrences, leftmost first.  [skip] counts the characters of a
    match that are still to be dropped. *)
Fixpoint replace_from (skip : nat) (old new s : string) : string :=
  match s with
  | EmptyString => EmptyString
  | String c s' =>
      match skip with
      | S k => replace_from k old new s'
      | O =>
          if String.prefix old s
          then new ++ replace_from (String.length old - 1) old new s'
          else String c (replace_from 0 old new s')
      end
  end.

Definition replace (old new s : string) : string := replace_from 0 old new s.

(** [l[0]] and [l[-1]] on the token lists produced by [split], which
    are never empty. *)
Definition first (l : list string) : string := hd EmptyString l.
Definition last (l : list string) : string := List.last l EmptyString.

(** [str.isspace] on ASCII: TAB, LF, VT, FF, CR, FS, GS, RS, US, SPACE. *)
Definition isspace (c : ascii) : bool :=
  let n := nat_of_ascii c in
  (((9 <=? n) && (n <=? 13)) || ((28 <=? n) && (n <=? 32)))%nat.

Definition starts_token (s : string) : bool :=
  match s with
  | EmptyString => false
  | String c _ => negb (isspace c)
  end.

(** [s.split()]: maximal runs of non-whitespace characters. *)
Fixpoint split_ws (s : string) : list string :=
  match s with
  | EmptyString => []
  | String c s' =>
      if isspace c then split_ws s'
      else if starts_token s'
           then match split_ws s' with
                | t :: ts => String c t :: ts
                | [] => [String c EmptyString]
                end
           else String c EmptyString :: split_ws s'
  end.

Definition LF : ascii := ascii_of_nat 10.
Definition CR : ascii := ascii_of_nat 13.

(** [f.readlines()] of a file opened in text mode: universal newlines,
    every terminator read as LF and kept at the end of its line. *)
Fixpoint readlines (s : string) : list string :=
  match s with
  | EmptyString => []
  | String c s' =>
      if Ascii.eqb c LF then String LF EmptyString :: readlines s'
      else if Ascii.eqb c CR then
        match s' with
        | String c' s'' =>
            if Ascii.eqb c' LF then String LF EmptyString :: readlines s''
            else String LF EmptyString :: readlines s'
        | EmptyString => [String LF EmptyString]
        end
      else match readlines s' with
           | l :: ls => String c l :: ls
           | [] => [String c EmptyString]
           end
  end.

(** [fnmatch] patterns made of literal characters and [*] (the only
    patterns this module uses). *)
Inductive ptok := PLit (c : ascii) | PStar.

Fixpoint pattern (p : string) : list ptok :=
  match p with
  | EmptyString => []
  | String c p' =>
      (if Ascii.eqb c "*"%char then PStar else PLit c) :: pattern p'
  end.

Fixpoint wild (p : list ptok) (s : string) {struct p} : bool :=
  match p with
  | [] => match s with EmptyString => true | _ => false end
  | PLit c :: p' =>
      match s with
      | String c' s' => Ascii.eqb c c' && wild p' s'
      | EmptyString => false
      end
  | PStar :: p' =>
      (fix star (s : string) : bool :=
         wild p' s ||
         match s with
         | String _ s' => star s'
         | EmptyString => false
         end) s
  end.

Definition fnmatch (name pat : string) : bool := wild (pattern pat) name.

End Py.

(** ** The identifier derivation of [collect_scores] (line 137)

    [split("_")[1:-1]] joined by ["_"], then ["_"], then
    [split("_")[0].replace("r", "")]. *)

Definition description_of (raw : string) : string :=
  let toks := Py.split "_" raw in
  Py.join "_" (Py.slice toks 1 (-1)) ++ "_" ++ Py.replace "r" "" (Py.first toks).

(** ** Data model *)

(** What [pd.read_json(scorefile, typ='series')] yields for a record
    file: the mandatory [decoy] string and the other fields, kept as
    key / JSON-literal pairs that are passed through untouched. *)
Record JobRecord := {
  decoy : string;
  fields : list (string * string)
}.

(** A row of [scores_df] after line 137, and after line 153. *)
Record Scored := {
  raw_description : string;
  description : string;
  passthrough : list (string * string)
}.

Record Row := {
  score :> Scored;
  location : string
}.

(** ** The working directory

    File contents are kept up to what [pd.read_json] makes of them:
    [Json r] parses to the Series [r], a [Blob] (an artifact, a
    truncated or otherwise malformed record) makes it raise.  An entry
    is a regular file or a directory, of which only the names of its
    children are kept (the program never looks below [work_dir]); names
    are single path components, and the listing order is the order
    [glob] reports. *)

Inductive content :=
| Json (r : JobRecord)
| Blob (text : string).

Inductive node :=
| File (c : content)
| Dir (children : list string).

Definition dir := list (string * node).

Inductive exn :=
| ValueError
| KeyError (key : string)
| FileNotFoundError (path : string)
| FileExistsError (path : string)
| IsADirectoryError (path : string)
| ShutilError (path : string).

Module FS.

Fixpoint lookup (d : dir) (n : string) : option node :=
  match d with
  | [] => None
  | (m, v) :: d' => if String.eqb m n then Some v else lookup d' n
  end.

Definition names (d : dir) : list string := map fst d.

Definition remove (d : dir) (n : string) : dir :=
  filter (fun e => negb (String.eqb (fst e) n)) d.

Fixpoint put (d : dir) (n : string) (v : node) : dir :=
  match d with
  | [] => [(n, v)]
  | (m, w) :: d' => if String.eqb m n then (n, v) :: d' else (m, w) :: put d' n v
  end.

Definition has (ch : list string) (n : string) : bool :=
  existsb (String.eqb n) ch.

(** [os.path.isfile(f"{work_dir}/{n}")] *)
Definition isfile (d : dir) (n : string) : bool :=
  match lookup d n with
  | Some (File _) => true
  | _ => false
  end.

(** [glob(f"{work_dir}/{pat}")], reported as names inside [work_dir]. *)
Definition glob (d : dir) (pat : string) : list string :=
  filter (fun n => Py.fnmatch n pat) (names d).

(** [os.remove(f"{work_dir}/{n}")] *)
Definition os_remove (d : dir) (n : string) : exn + dir :=
  match lookup d n with
  | None => inl (FileNotFoundError n)
  | Some (Dir _) => inl (IsADirectoryError n)
  | Some (File _) => inr (remove d n)
  end.

(** [shutil.move(f"{work_dir}/{src}", f"{work_dir}/{dst}")].

    An existing directory [dst] receives [src] as a child (unless it
    is [src] itself, or already has a child of that name); otherwise
    [os.rename] replaces a regular file [dst]; a directory cannot
    replace a regular file. *)
Definition shutil_move (d : dir) (src dst : string) : exn + dir :=
  match lookup d dst with
  | Some (Dir ch) =>
      if String.eqb src dst then inr d
      else if has ch src then inl (ShutilError (dst ++ "/" ++ src))
      else match lookup d src with
           | None => inl (FileNotFoundError src)
           | Some _ => inr (put (remove d src) dst (Dir (ch ++ [src])%list))
           end
  | other =>
      match lookup d src with
      | None => inl (FileNotFoundError src)
      | Some (File c) =>
          inr (if String.eqb src dst then d else put (remove d src) dst (File c))
      | Some (Dir ch) =>
          match other with
          | None => inr (put (remove d src) dst (Dir ch))
          | Some _ => inl (FileExistsError dst)
          end
      end
  end.

(** [pd.read_json(f"{work_dir}/{n}", typ='series')] *)
Definition read_json (d : dir) (n : string) : exn + JobRecord :=
  match lookup d n with
  | None => inl (FileNotFoundError n)
  | Some (Dir _) => inl (IsADirectoryError n)
  | Some (File (Blob _)) => inl ValueError
  | Some (File (Json r)) => inr r
  end.

End FS.

(** ** Effects: the directory, a clock in seconds, and the trace of
    what the program did *)

Inductive event :=
| EvSleep (secs : nat)
| EvMove (src dst : string)
| EvWarn (oldname nf : string)
| EvInfo (renaming : nat)
| EvRemove (name : string)
| EvMakedirs
| EvStart (cmds : list string).

Record world := {
  fs : dir;
  clock : nat;
  trace : list event
}.

Inductive outcome (A : Type) :=
| Done (a : A) (w : world)      (* returned [a] *)
| Raise (e : exn) (w : world)   (* an exception left the function *)
| Spin (w : world).             (* still looping when the fuel ran out *)

Arguments Done {A} a w.
Arguments Raise {A} e w.
Arguments Spin {A} w.

Definition M (A : Type) := world -> outcome A.

Definition ret {A} (a : A) : M A := fun w => Done a w.

Definition bind {A B} (m : M A) (k : A -> M B) : M B :=
  fun w => match m w with
           | Done a w' => k a w'
           | Raise e w' => Raise e w'
           | Spin w' => Spin w'
           end.

Notation "x <- m ;; k" := (bind m (fun x => k))
  (at level 61, m at next level, right associativity).
Notation "m ;;; k" := (bind m (fun _ => k))
  (at level 61, right associativity).

Definition raise {A} (e : exn) : M A := fun w => Raise e w.

Definition emit (e : event) : M unit :=
  fun w => Done tt {| fs := fs w; clock := clock w; trace := (trace w ++ [e])%list |}.

Definition get_fs : M dir := fun w => Done (fs w) w.

Definition set_fs (d : dir) : M unit :=
  fun w => Done tt {| fs := d; clock := clock w; trace := trace w |}.

Definition lift {A} (r : exn + A) : M A :=
  match r with
  | inl e => raise e
  | inr a => ret a
  end.

Fixpoint for_each {A} (f : A -> M unit) (l : list A) : M unit :=
  match l with
  | [] => ret tt
  | x :: l' => f x ;;; for_each f l'
  end.

Fixpoint map_m {A B} (f : A -> M B) (l : list A) : M (list B) :=
  match l with
  | [] => ret []
  | x :: l' => y <- f x ;; ys <- map_m f l' ;; ret (y :: ys)
  end.

Definition glob (pat : string) : M (list string) :=
  d <- get_fs ;; ret (FS.glob d pat).

Definition isfile (n : string) : M bool :=
  d <- get_fs ;; ret (FS.isfile d n).

Definition read_json (n : string) : M JobRecord :=
  d <- get_fs ;; lift (FS.read_json d n).

Definition shutil_move (src dst : string) : M unit :=
  emit (EvMove src dst) ;;;
  d <- get_fs ;; d' <- lift (FS.shutil_move d src dst) ;; set_fs d'.

Definition os_remove (n : string) : M unit :=
  emit (EvRemove n) ;;;
  d <- get_fs ;; d' <- lift (FS.os_remove d n) ;; set_fs d'.

(** ** [collect_scores] *)

Section Reconciler.

(** What the producing tool still writes into the directory during
    the second that starts at a given clock value: the program polls
    for it and does not control it. *)
Variable flush : nat -> dir -> dir.

Fixpoint flush_for (secs t : nat) (d : dir) : dir :=
  match secs with
  | O => d
  | S k => flush_for k (S t) (flush t d)
  end.

(** [time.sleep(secs)] *)
Definition sleep (secs : nat) : M unit :=
  fun w => Done tt {| fs := flush_for secs (clock w) (fs w);
                      clock := clock w + secs;
                      trace := (trace w ++ [EvSleep secs])%list |}.

Definition scored (r : JobRecord) : Scored :=
  {| raw_description := decoy r;
     description := description_of (decoy r);
     passthrough := fields r |}.

(** Lines 136-137.  [pd.DataFrame([])] has no column at all, so
    [scores_df["raw_description"]] raises [KeyError]. *)
Definition build_scores (scores_l : list JobRecord) : exn + list Scored :=
  match scores_l with
  | [] => inl (KeyError "raw_description")
  | _ :: _ => inr (map scored scores_l)
  end.

(** Lines 140-141. *)
Fixpoint wait_for_pdbs (fuel n : nat) : M unit :=
  fun w =>
    if Nat.ltb (List.length (FS.glob (fs w) "r*.pdb")) n then
      match fuel with
      | O => Spin w
      | S fuel' => (sleep 1 ;;; wait_for_pdbs fuel' n) w
      end
    else Done tt w.

(** Lines 147-150, for one [(oldname, newname)] pair. *)
Definition rename_row (row : Scored) : M unit :=
  let oldname := raw_description row in
  let newname := description row in
  let nf := newname ++ ".pdb" in
  shutil_move (oldname ++ ".pdb") nf ;;;
  ok <- isfile nf ;;
  if ok then ret tt
  else emit (EvWarn oldname nf) ;;; shutil_move (oldname ++ ".pdb") nf.

(** Line 153. *)
Definition with_location (work_dir : string) (s : Scored) : Row :=
  {| score := s; location := work_dir ++ "/" ++ description s ++ ".pdb" |}.

(** Lines 158-161. *)
Definition sweep_name (pdb_path : string) : string :=
  let idx := Py.replace "r" "" (Py.first (Py.split "_" pdb_path)) in
  Py.replace ".pdb" "" (Py.join "_" (Py.slice (Py.split "_" pdb_path) 1 (-1)))
    ++ "_" ++ idx ++ ".pdb".

Definition sweep_one (path : string) : M unit :=
  let pdb_path := Py.last (Py.split "/" path) in
  shutil_move pdb_path (sweep_name pdb_path).

Definition path_in (work_dir name : string) : string :=
  work_dir ++ "/" ++ name.

Definition sweep (work_dir : string) : M unit :=
  remaining_r_pdbfiles <- glob "r*.pdb" ;;
  for_each sweep_one (map (path_in work_dir) remaining_r_pdbfiles).

(** Lines 132-137: the score table before any file is touched. *)
Definition load_scores : M (list Scored) :=
  scorefiles <- glob "r*_*_score.json" ;;
  scores_l <- map_m read_json scorefiles ;;
  lift (build_scores scores_l).

(** Lines 143-166: the rename loop, the sweep and the returned table. *)
Definition rename_and_sweep (work_dir : string) (scores_df : list Scored)
  : M (list Row) :=
  emit (EvInfo (List.length scores_df)) ;;;
  for_each rename_row scores_df ;;;
  sweep work_dir ;;;
  ret (map (with_location work_dir) scores_df).

Definition collect_scores (fuel : nat) (work_dir : string) : M (list Row) :=
  scores_df <- load_scores ;;
  wait_for_pdbs fuel (List.length scores_df) ;;;
  rename_and_sweep work_dir scores_df.

(** ** [Rosetta.run], from line 69 on *)

(** The job-dispatch collaborator: what the dispatched commands have
    written into the directory by the time [start] returns. *)
Variable jobstarter_start : list string -> dir -> dir.

Definition start (cmds : list string) : M unit :=
  fun w => Done tt {| fs := jobstarter_start cmds (fs w);
                      clock := clock w;
                      trace := (trace w ++ [EvStart cmds])%list |}.






(** The world after [k] polls of the readiness barrier. *)
Definition polls (k : nat) (w : world) : world :=
  {| fs := flush_for k (clock w) (fs w);
     clock := clock w + k;
     trace := (trace w ++ repeat (EvSleep 1) k)%list |}.

End Reconciler.

(** ** [clean_rosetta_scorefile]

    Text files by path; [open(path, 'r')] of a missing file raises. *)

Definition files := string -> option string.

Definition write (fs : files) (path text : string) : files :=
  fun p => if String.eqb p path then Some text else fs p.

Definition clean_lines (text : string) : list (list string) :=
  let scores := map Py.split_ws (Py.slice_from (Py.readlines text) 1) in
  filter (fun line => Nat.eqb (List.length line) (List.length (nth 0 scores []))) scores.

Definition clean_rosetta_scorefile (path_to_file out_path : string) (fs : files)
  : exn + (string * files) :=
  match fs path_to_file with
  | None => inl (FileNotFoundError path_to_file)
  | Some text =>
      let scores_cleaned := clean_lines text in
      inr (out_path,
           write fs out_path
             (Py.join (String Py.LF EmptyString) (map (Py.join ",") scores_cleaned)))
  end.

(** ** Vocabulary of the statements *)

Fixpoint has_char (c : ascii) (s : string) : bool :=
  match s with
  | EmptyString => false
  | String x s' => Ascii.eqb x c || has_char c s'
  end.

Fixpoint delete_char (c : ascii) (s : string) : string :=
  match s with
  | EmptyString => EmptyString
  | String x s' => if Ascii.eqb x c then delete_char c s' else String x (delete_char c s')
  end.

Definition is_digit (x : ascii) : bool :=
  let n := nat_of_ascii x in ((48 <=? n) && (n <=? 57))%nat.

Fixpoint all_digits (s : string) : bool :=
  match s with
  | EmptyString => true
  | String x s' => is_digit x && all_digits s'
  end.

Definition tokens (raw : string) : list string := Py.split "_" raw.

(** The naming convention of section 6 as Rosetta completes it: an
    ordinal token [r] + digits, at least one basename token, and a
    final token (the per-invocation suffix). *)
Definition conventional (raw : string) : bool :=
  match tokens raw with
  | String "r" ord :: _ :: _ :: _ => all_digits ord
  | _ => false
  end.

Definition suffix (raw : string) : string := Py.last (tokens raw).

(** An artifact name without its [.pdb] extension, and the name the
    main loop's rule gives that artifact. *)
Definition stem (name : string) : string :=
  substring 0 (String.length name - 4) name.


(** The derivation as the specification words it: every token after
    the first, joined by ["_"], then ["_"] and the first token without
    its leading ["r"]. *)
Definition strip_leading (c : ascii) (s : string) : string :=
  match s with
  | String x s' => if Ascii.eqb x c then s' else s
  | EmptyString => s
  end.

Definition spec_description (raw : string) : string :=
  Py.join "_" (Py.slice_from (tokens raw) 1) ++ "_" ++ strip_leading "r" (Py.first (tokens raw)).


Definition is_record (n : string) : bool := Py.fnmatch n "r*_*_score.json".


Definition idle : nat -> dir -> dir := fun _ d => d.

Definition fresh (d : dir) : world := {| fs := d; clock := 0; trace := [] |}.

Definition record_file (d : string) : node :=
  File (Json {| decoy := d; fields := [("rmsd", "1.2")] |}).

Definition artifact : node := File (Blob "ATOM").

(** Reading the discovered record files in order: the first file that
    does not parse decides. *)
Fixpoint read_all (d : dir) (l : list string) : exn + list JobRecord :=
  match l with
  | [] => inr []
  | n :: l' =>
      match FS.read_json d n with
      | inl e => inl e
      | inr r =>
          match read_all d l' with
          | inl e => inl e
          | inr rs => inr (r :: rs)
          end
      end
  end.

(** Directories of the examples. *)
Definition dir_design : dir :=
  [("r0007_myprotein_design_score.json", record_file "r0007_myprotein_design");
   ("r0007_myprotein_design.pdb", artifact)].

Definition row_design : Row :=
  {| score := {| raw_description := "r0007_myprotein_design";
                 description := "myprotein_0007";
                 passthrough := [("rmsd", "1.2")] |};
     location := "wd/myprotein_0007.pdb" |}.

Definition dir_two_suffixes : dir :=
  [("r0001_foo_score.json", record_file "r0001_foo_0001");
   ("r0002_foo_score.json", record_file "r0001_foo_0002");
   ("r0001_foo_0001.pdb", artifact);
   ("r0001_foo_0002.pdb", artifact)].

Definition dir_two_poses : dir :=
  [("r0001_foo_score.json", record_file "r0001_foo_0001");
   ("r0002_foo_score.json", record_file "r0002_foo_0001");
   ("r0001_foo_0001.pdb", artifact);
   ("r0002_foo_0001.pdb", artifact)].




Definition dir_reconciled : dir :=
  [("foo_0001.pdb", artifact); ("foo_0002.pdb", artifact)].

(** A producing tool that lags: the artifact shows up during the second
    poll. *)
Definition late_flush : nat -> dir -> dir :=
  fun t d => if Nat.eqb t 1 then (d ++ [("r0001_foo_0001.pdb", artifact)])%list else d.

Definition dir_awaiting : dir :=
  [("r0001_foo_score.json", record_file "r0001_foo_0001")].


Definition scored_foo : Scored := scored {| decoy := "r0001_foo_0001"; fields := [("rmsd", "1.2")] |}.




(** The number of raw artifacts seen by the [j]-th poll. *)
Definition pdb_count (flush : nat -> dir -> dir) (j : nat) (w : world) : nat :=
  List.length (FS.glob (fs (polls flush j w)) "r*.pdb").







(** A scorefile with one short line. *)
Definition nl : string := String Py.LF EmptyString.

Definition scorefile_text : string :=
  "SEQUENCE:" ++ nl ++
  "SCORE: total rms description" ++ nl ++
  "SCORE: 1.0 2.0 x_0001" ++ nl ++
  "SCORE: 1.0 x_0002" ++ nl ++
  "SCORE: 3.0 4.0 x_0003" ++ nl.

Definition one_file (path text : string) : files :=
  write (fun _ => None) path text.

(** ** [Rosetta.setup_executable]

    The two things the function asks the operating system about a
    path are taken as they are answered. *)

Section Executable.

(** [os.path.isfile(p) and os.access(p, os.X_OK)] and [os.path.isdir(p)]. *)
Variable is_executable_file : string -> bool.
Variable os_path_isdir : string -> bool.

(** Truth value of an optional [str] argument: [None] and [""] are false. *)
Definition truthy (s : option string) : bool :=
  match s with
  | None => false
  | Some EmptyString => false
  | Some (String _ _) => true
  end.

Definition endswith_sep (s : string) : bool :=
  Ascii.eqb (List.last (list_ascii_of_string s) "x"%char) "/"%char.

(** [os.path.join(a, b)] on POSIX. *)
Definition os_path_join (a b : string) : string :=
  if String.prefix "/" b then b
  else if String.eqb a EmptyString || endswith_sep a then a ++ b
  else a ++ "/" ++ b.

Definition setup_executable (script_path : string) (rosetta_application : option string)
  : exn + string :=
  match rosetta_application with
  | Some (String c app') =>
      let app := String c app' in
      if is_executable_file app then inr app
      else if os_path_isdir script_path then
        let combined_path := os_path_join script_path app in
        if is_executable_file combined_path then inr combined_path
        else inl ValueError
      else inl ValueError
  | _ =>
      if is_executable_file script_path then inr script_path
      else inl ValueError
  end.

End Executable.

(** ** [Rosetta.write_cmd] and the command list of [run] *)

(** [needle in hay] *)
Fixpoint contains (needle hay : string) : bool :=
  String.prefix needle hay ||
  match hay with
  | EmptyString => false
  | String _ hay' => contains needle hay'
  end.

Definition forbidden_options : list string :=
  ["-out:path:all"; "-in:file:s"; "-out:prefix"; "-out:file:scorefile";
   "-out:file:scorefile_format"; " -s "; "-scorefile_format"].

(** [options and any(opt in options for opt in forbidden_options)] *)
Definition mentions_forbidden (options : option string) : bool :=
  match options with
  | Some (String c o) => existsb (fun opt => contains opt (String c o)) forbidden_options
  | _ => false
  end.

(** [str(i)] for a natural number. *)
Definition str_nat (i : nat) : string := NilZero.string_of_uint (Nat.to_uint i).

Fixpoint zeros (n : nat) : string :=
  match n with
  | O => EmptyString
  | S k => String "0" (zeros k)
  end.

(** [s.zfill(width)]: zeros go after a leading sign. *)
Definition zfill (width : nat) (s : string) : string :=
  let pad := zeros (width - String.length s) in
  match s with
  | String "+" rest => String "+" (pad ++ rest)
  | String "-" rest => String "-" (pad ++ rest)
  | _ => pad ++ s
  end.

(** [os.path.basename(p)] *)
Definition os_path_basename (p : string) : string := Py.last (Py.split "/" p).

(** [os.path.splitext(name)[0]] for a name without [/]: all before the
    last dot, unless nothing but dots precedes it. *)
Definition splitext_root (name : string) : string :=
  let parts := Py.split "." name in
  let root := Py.join "." (removelast parts) in
  if existsb (fun t => negb (String.eqb t EmptyString)) (removelast parts)
  then root else name.

(** A decoy name that begins with the output prefix of line 125,
    goes on with a stem and ends in a final token. *)
Definition prefixed_decoy (i : nat) (stem suf : string) : string :=
  "r" ++ zfill 4 (str_nat i) ++ "_" ++ stem ++ "_" ++ suf.

(** The score file the command tells Rosetta to write (line 125). *)
Definition scorefile_name (i : nat) (pose_path : string) : string :=
  "r" ++ zfill 4 (str_nat i) ++ "_" ++ splitext_root (os_path_basename pose_path)
      ++ "_score.json".

Section Commands.

(** [protflow.runners.parse_generic_options] is not part of these
    sources: it is taken as given.  Line 119 overwrites what line 109
    computed, so only the second call shows in the command. *)
Variable parse_generic_options :
  option string -> option string -> list (string * string) * list string.

Definition write_cmd (rosetta_application pose_path output_dir : string) (i : nat)
    (overwrite : bool) (options pose_options : option string) : exn + string :=
  if mentions_forbidden options || mentions_forbidden pose_options
  then inl (KeyError "forbidden_options")
  else
    let (opts, flags) := parse_generic_options options pose_options in
    let opts :=
      match opts with
      | [] => EmptyString
      | _ => Py.join " " (map (fun kv => "-" ++ fst kv ++ "=" ++ snd kv) opts)
      end in
    let flags :=
      match flags with
      | [] => EmptyString
      | _ => " -" ++ Py.join " -" flags
      end in
    let overwrite := if overwrite then " -overwrite" else EmptyString in
    inr (rosetta_application ++ " -out:path:all " ++ output_dir
         ++ " -in:file:s " ++ pose_path
         ++ " -out:prefix r" ++ zfill 4 (str_nat i) ++ "_"
         ++ " -out:file:scorefile " ++ scorefile_name i pose_path
         ++ " -out:file:scorefile_format json "
         ++ opts ++ " " ++ flags ++ " " ++ overwrite).

(** Lines 84-87: for each pose with its options, [nstruct] commands,
    numbered from 1; the first command that cannot be written raises. *)
Fixpoint collect {A} (l : list (exn + A)) : exn + list A :=
  match l with
  | [] => inr []
  | inl e :: _ => inl e
  | inr a :: l' =>
      match collect l' with
      | inl e => inl e
      | inr r => inr (a :: r)
      end
  end.

Definition build_cmds (rosetta_exec work_dir : string) (overwrite : bool)
    (options : option string) (nstruct : nat)
    (poses : list string) (pose_options : list (option string)) : exn + list string :=
  collect
    (flat_map
       (fun pp : string * option string =>
          map (fun i => write_cmd rosetta_exec (fst pp) work_dir i overwrite options (snd pp))
              (seq 1 nstruct))
       (combine poses pose_options)).

End Commands.

(** ** Chain arguments of [protein_edits.py] *)

(** A pose as the functions see it: a row with named string cells. *)
Definition pose_row := list (string * string).

Fixpoint cell (pose : pose_row) (col : string) : option string :=
  match pose with
  | [] => None
  | (k, v) :: pose' => if String.eqb k col then Some v else cell pose' col
  end.

(** The values the [chain] parameters are called with. *)
Inductive chain_arg :=
| ChainStr (s : string)
| ChainList (l : list string)
| ChainOther.

Inductive chain_error :=
| ChainValueError
| ChainTypeError
| ChainKeyError (col : string).

(** [parse_chain] (lines 220-224) *)
Definition parse_chain (chain : chain_arg) (pose : pose_row) : chain_error + string :=
  match chain with
  | ChainStr s =>
      if Nat.eqb (String.length s) 1 then inr s
      else match cell pose s with
           | Some v => inr v
           | None => inl (ChainKeyError s)
           end
  | _ => inl ChainTypeError
  end.

Fixpoint column (poses : list pose_row) (col : string) : chain_error + list string :=
  match poses with
  | [] => inr []
  | pose :: poses' =>
      match cell pose col with
      | None => inl (ChainKeyError col)
      | Some v =>
          match column poses' col with
          | inl e => inl e
          | inr vs => inr (v :: vs)
          end
      end
  end.

(** [setup_chain_list] (lines 209-218) *)
Definition setup_chain_list (arg : chain_arg) (poses : list pose_row)
  : chain_error + list string :=
  match arg with
  | ChainStr s =>
      if Nat.eqb (String.length s) 1 then inr (map (fun _ => s) poses)
      else column poses s
  | ChainList l =>
      if Nat.eqb (List.length l) (List.length poses) then inr l
      else inl ChainValueError
  | ChainOther => inl ChainValueError
  end.

(** ** The sequences of [add_sequence] and [multimerize] *)

(** [s * n] *)
Fixpoint str_times (s : string) (n : nat) : string :=
  match n with
  | O => EmptyString
  | S k => s ++ str_times s k
  end.

(** [f"{sep}"] for an optional [str]. *)
Definition fmt (sep : option string) : string :=
  match sep with
  | None => "None"
  | Some s => s
  end.

(** Line 197: [orig_seq += f"{sep}{orig_seq}" * (n_protomers - 1)];
    a count that is not positive repeats nothing. *)
Definition multimer_seq (sep : option string) (orig_seq : string) (n_protomers : Z)
  : string :=
  orig_seq ++ str_times (fmt sep ++ orig_seq) (Z.to_nat (n_protomers - 1)).

(** Lines 165 and 172: [sep = "" if sep is None else sep], then
    [orig_seq += sep + seq_]. *)
Definition added_seq (sep : option string) (orig_seq seq_ : string) : string :=
  let sep := match sep with None => EmptyString | Some s => s end in
  orig_seq ++ sep ++ seq_.

(** ** Vocabulary of the further statements *)




(** A field as [str.split()] yields it: not empty, no whitespace. *)
Definition is_field (t : string) : bool :=
  negb (String.eqb t EmptyString)
  && forallb (fun c => negb (Py.isspace c)) (list_ascii_of_string t).


Definition pose_rows_example : list pose_row :=
  [[("poses", "a.pdb"); ("chain_col", "B")];
   [("poses", "b.pdb"); ("chain_col", "C")]].



(** * Facts about the string primitives *)

Module PyFacts.

Lemma split_nonempty (c : ascii) (s : string) : Py.split c s <> [].
Proof.
  induction s as [|x s IH]; simpl; [discriminate|].
  destruct (Ascii.eqb x c); [discriminate|].
  destruct (Py.split c s); [contradiction | discriminate].
Qed.

Lemma split_cons (c : ascii) (s : string) :
  exists t ts, Py.split c s = t :: ts.
Proof.
  destruct (Py.split c s) as [|t ts] eqn:E; [|eauto].
  exfalso; exact (split_nonempty c s E).
Qed.


Lemma append_assoc (a b c : string) : (a ++ b) ++ c = a ++ b ++ c.
Proof. induction a; simpl; congruence. Qed.

(** Splitting distributes over a separator. *)
Lemma split_app_sep (c : ascii) (a b : string) :
  Py.split c (a ++ String c b) = (Py.split c a ++ Py.split c b)%list.
Proof.
  induction a as [|x a IH]; simpl.
  - now rewrite Ascii.eqb_refl.
  - destruct (Ascii.eqb x c); [now rewrite IH|].
    rewrite IH. destruct (split_cons c a) as (t & ts & ->). reflexivity.
Qed.

Lemma split_nosep (c : ascii) (s : string) :
  has_char c s = false -> Py.split c s = [s].
Proof.
  induction s as [|x s IH]; simpl; [reflexivity|].
  intros H. apply orb_false_iff in H as [Hx Hs].
  rewrite Hx, (IH Hs). reflexivity.
Qed.


Lemma join_cons (sep t : string) (ts : list string) :
  ts <> [] -> Py.join sep (t :: ts) = t ++ sep ++ Py.join sep ts.
Proof. destruct ts; [contradiction | reflexivity]. Qed.

Lemma join_split (c : ascii) (s : string) :
  Py.join (String c "") (Py.split c s) = s.
Proof.
  induction s as [|x s IH]; simpl; [reflexivity|].
  destruct (Ascii.eqb x c) eqn:E.
  - apply Ascii.eqb_eq in E as ->.
    destruct (split_cons c s) as (t & ts & Hs). rewrite Hs in *.
    simpl in *. now rewrite IH.
  - destruct (split_cons c s) as (t & ts & Hs). rewrite Hs in *.
    destruct ts as [|u ts]; simpl in *; now rewrite <- IH.
Qed.

Lemma split_tokens_nosep (c : ascii) (s : string) :
  Forall (fun t => has_char c t = false) (Py.split c s).
Proof.
  induction s as [|x s IH]; simpl.
  - repeat constructor.
  - destruct (Ascii.eqb x c) eqn:E.
    + constructor; [reflexivity | exact IH].
    + destruct (split_cons c s) as (t & ts & Hs). rewrite Hs in *.
      inversion IH; subst. constructor; [simpl; now rewrite E | assumption].
Qed.

Lemma split_join (c : ascii) (l : list string) :
  l <> [] -> Forall (fun t => has_char c t = false) l ->
  Py.split c (Py.join (String c "") l) = l.
Proof.
  induction l as [|t ts IH]; [contradiction|]. intros _ H.
  inversion H as [|? ? Ht Hts]; subst.
  destruct ts as [|u ts].
  - simpl. now apply split_nosep.
  - rewrite join_cons by discriminate.
    change (t ++ String c "" ++ Py.join (String c "") (u :: ts))
      with (t ++ String c (Py.join (String c "") (u :: ts))).
    rewrite split_app_sep, (split_nosep _ _ Ht), IH by (assumption || discriminate).
    reflexivity.
Qed.



(** [s.replace("r", "")] deletes every [r]. *)
Lemma replace_char_empty (c : ascii) (s : string) :
  Py.replace (String c "") "" s = delete_char c s.
Proof.
  unfold Py.replace. induction s as [|x s IH]; simpl; [reflexivity|].
  destruct (ascii_dec c x) as [->|N].
  - rewrite Ascii.eqb_refl. destruct s; simpl in *; exact IH.
  - assert (Ascii.eqb x c = false) as -> by (apply Ascii.eqb_neq; congruence).
    now rewrite IH.
Qed.

Lemma delete_char_digits (s : string) :
  all_digits s = true -> delete_char "r" s = s.
Proof.
  induction s as [|x s IH]; simpl; [reflexivity|].
  intros H. apply andb_true_iff in H as [Hx Hs].
  destruct (Ascii.eqb x "r") eqn:E.
  - apply Ascii.eqb_eq in E as ->. discriminate.
  - now rewrite IH.
Qed.

(** [l[1:-1]] and [l[1:]] in list terms. *)
Lemma slice_1_m1 {A} (l : list A) : Py.slice l 1 (-1) = removelast (tl l).
Proof.
  unfold Py.slice, Py.clamp.
  change (1 <? 0)%Z with false. change (-1 <? 0)%Z with true. cbv iota.
  destruct l as [|x l]; [reflexivity|].
  cbn [tl]. rewrite removelast_firstn_len.
  replace (Z.to_nat (Z.min 1 (Z.of_nat (List.length (x :: l))))) with 1%nat
    by (cbn [List.length]; lia).
  cbn [skipn]. f_equal. cbn [List.length]. lia.
Qed.

Lemma slice_from_1 {A} (l : list A) : Py.slice_from l 1 = tl l.
Proof.
  unfold Py.slice_from, Py.clamp. change (1 <? 0)%Z with false. cbv iota.
  destruct l as [|x l]; [reflexivity|].
  replace (Z.to_nat (Z.min 1 (Z.of_nat (List.length (x :: l))))) with 1%nat
    by (cbn [List.length]; lia).
  reflexivity.
Qed.


End PyFacts.

(** * Facts about the identifier derivation *)

Module Describe.
Import PyFacts.

Lemma description_tokens (raw : string) :
  description_of raw
  = Py.join "_" (removelast (tl (tokens raw))) ++ "_" ++ delete_char "r" (hd "" (tokens raw)).
Proof.
  unfold description_of, tokens, Py.first.
  now rewrite slice_1_m1, replace_char_empty.
Qed.

Lemma description_three (ord base suf : string) :
  has_char "_" ord = false -> has_char "_" suf = false ->
  description_of (ord ++ "_" ++ base ++ "_" ++ suf) = base ++ "_" ++ delete_char "r" ord.
Proof.
  intros Ho Hs. rewrite description_tokens. unfold tokens.
  change (ord ++ "_" ++ base ++ "_" ++ suf)
    with (ord ++ String "_" (base ++ String "_" suf)).
  rewrite !split_app_sep, (split_nosep _ _ Ho), (split_nosep _ _ Hs).
  cbn [app hd tl]. rewrite removelast_last, join_split. reflexivity.
Qed.

Lemma description_two (ord suf : string) :
  has_char "_" ord = false -> has_char "_" suf = false ->
  description_of (ord ++ "_" ++ suf) = "_" ++ delete_char "r" ord.
Proof.
  intros Ho Hs. rewrite description_tokens. unfold tokens.
  change (ord ++ "_" ++ suf) with (ord ++ String "_" suf).
  rewrite split_app_sep, (split_nosep _ _ Ho), (split_nosep _ _ Hs).
  reflexivity.
Qed.

Lemma app_sep_inj (c : ascii) (x1 y1 x2 y2 : string) :
  has_char c y1 = false -> has_char c y2 = false ->
  x1 ++ String c y1 = x2 ++ String c y2 -> x1 = x2 /\ y1 = y2.
Proof.
  intros H1 H2 E. apply (f_equal (Py.split c)) in E.
  rewrite !split_app_sep, (split_nosep _ _ H1), (split_nosep _ _ H2) in E.
  apply app_inj_tail in E as [E ->]. split; [|reflexivity].
  rewrite <- (join_split c x1), <- (join_split c x2). now rewrite E.
Qed.

Lemma Forall_removelast {A} (P : A -> Prop) (l : list A) :
  Forall P l -> Forall P (removelast l).
Proof.
  induction 1 as [|x l Hx Hl IH]; simpl; [constructor|].
  destruct l; [constructor | now constructor].
Qed.

Lemma all_digits_nosep (s : string) : all_digits s = true -> has_char "_" s = false.
Proof.
  induction s as [|x s IH]; simpl; [reflexivity|].
  intros H. apply andb_true_iff in H as [Hx Hs]. rewrite (IH Hs), orb_false_r.
  destruct (Ascii.eqb x "_") eqn:E; [|reflexivity].
  apply Ascii.eqb_eq in E as ->. discriminate.
Qed.

(** The shape of a conventional name and of its description. *)
Lemma conventional_shape (raw : string) :
  conventional raw = true ->
  exists ord mid,
    all_digits ord = true /\ mid <> [] /\
    Forall (fun t => has_char "_" t = false) mid /\
    tokens raw = (String "r" ord :: mid ++ [suffix raw])%list /\
    description_of raw = Py.join "_" mid ++ "_" ++ ord.
Proof.
  intros H. unfold conventional in H.
  pose proof (split_tokens_nosep "_" raw) as HF. fold (tokens raw) in HF.
  pose proof (description_tokens raw) as HD. unfold suffix, Py.last.
  destruct (tokens raw) as [|f [|m [|u rest]]] eqn:E; try discriminate;
    try (destruct f as [|a f]; [discriminate|];
         destruct a as [[] [] [] [] [] [] [] []]; discriminate).
  destruct f as [|a ord]; [discriminate|].
  destruct a as [[] [] [] [] [] [] [] []]; try discriminate.
  exists ord, (removelast (m :: u :: rest)). inversion HF as [|? ? _ HF']; subst.
  split; [exact H|]. split; [simpl; discriminate|].
  split; [now apply Forall_removelast|]. split.
  - f_equal. change (List.last (String "r" ord :: m :: u :: rest) "")
      with (List.last (m :: u :: rest) "").
    apply app_removelast_last. discriminate.
  - rewrite HD. cbn [tl hd delete_char]. simpl Ascii.eqb. cbv iota.
    now rewrite delete_char_digits.
Qed.

(** On conventional names that share their final token the
    derivation is injective. *)
Lemma description_of_inj (a b : string) :
  conventional a = true -> conventional b = true ->
  suffix a = suffix b ->
  description_of a = description_of b -> a = b.
Proof.
  intros Ha Hb Hs E.
  destruct (conventional_shape a Ha) as (oa & ma & Da & Na & Fa & Ta & Ea).
  destruct (conventional_shape b Hb) as (ob & mb & Db & Nb & Fb & Tb & Eb).
  rewrite Ea, Eb in E.
  change (Py.join "_" ma ++ String "_" oa = Py.join "_" mb ++ String "_" ob) in E.
  apply app_sep_inj in E as [Em Eo]; try now apply all_digits_nosep.
  apply (f_equal (Py.split "_")) in Em.
  rewrite !split_join in Em by assumption.
  rewrite <- (join_split "_" a), <- (join_split "_" b).
  fold (tokens a) (tokens b). rewrite Ta, Tb. now rewrite Em, Eo, Hs.
Qed.

End Describe.

(** * Facts about the effect monad and the structure of a run *)

Module Run.

Lemma bind_done {A B} (m : M A) (k : A -> M B) (w w' : world) (b : B) :
  bind m k w = Done b w' ->
  exists a w1, m w = Done a w1 /\ k a w1 = Done b w'.
Proof.
  unfold bind. destruct (m w) as [a w1|e w1|w1]; try discriminate. eauto.
Qed.

Lemma world_eta (w : world) :
  {| fs := fs w; clock := clock w; trace := trace w |} = w.
Proof. now destruct w. Qed.

Lemma map_m_read_json (l : list string) (w : world) :
  map_m read_json l w
  = match read_all (fs w) l with
    | inl e => Raise e w
    | inr rs => Done rs w
    end.
Proof.
  induction l as [|n l IH]; [reflexivity|].
  cbn [map_m read_all]. unfold bind at 1. unfold read_json at 1.
  unfold bind at 1, get_fs at 1, lift.
  destruct (FS.read_json (fs w) n) as [e|r]; [reflexivity|].
  unfold ret at 1. unfold bind at 1. rewrite IH.
  destruct (read_all (fs w) l); reflexivity.
Qed.

Lemma load_scores_eq (w : world) :
  load_scores w
  = match read_all (fs w) (FS.glob (fs w) "r*_*_score.json") with
    | inl e => Raise e w
    | inr [] => Raise (KeyError "raw_description") w
    | inr (r :: rs) => Done (map scored (r :: rs)) w
    end.
Proof.
  unfold load_scores, glob. unfold bind at 1. unfold bind at 1, get_fs, ret.
  unfold bind at 1. rewrite map_m_read_json.
  destruct (read_all (fs w) _) as [e|[|r rs]]; reflexivity.
Qed.

Lemma load_scores_done (w w' : world) (s : list Scored) :
  load_scores w = Done s w' ->
  w' = w /\ exists rs, rs <> [] /\ s = map scored rs /\
    read_all (fs w) (FS.glob (fs w) "r*_*_score.json") = inr rs.
Proof.
  rewrite load_scores_eq.
  destruct (read_all (fs w) _) as [e|[|r rs]] eqn:E; try discriminate.
  intros [= <- <-]. split; [reflexivity|]. exists (r :: rs).
  split; [discriminate|]. split; reflexivity.
Qed.

Lemma rename_and_sweep_done wd (s : list Scored) (w w' : world) (t : list Row) :
  rename_and_sweep wd s w = Done t w' -> t = map (with_location wd) s.
Proof.
  unfold rename_and_sweep. intros H.
  apply bind_done in H as (? & ? & _ & H).
  apply bind_done in H as (? & ? & _ & H).
  apply bind_done in H as (? & ? & _ & H).
  now injection H as <- _.
Qed.

(** The table a completed run returns is read off the record files
    alone. *)
Lemma collect_scores_table flush fuel wd (w w' : world) (t : list Row) :
  collect_scores flush fuel wd w = Done t w' ->
  exists rs, rs <> [] /\
    read_all (fs w) (FS.glob (fs w) "r*_*_score.json") = inr rs /\
    t = map (with_location wd) (map scored rs).
Proof.
  unfold collect_scores. intros H.
  apply bind_done in H as (s & w1 & Hl & H).
  apply bind_done in H as (? & ? & _ & H).
  apply rename_and_sweep_done in H.
  apply load_scores_done in Hl as (_ & rs & Hne & -> & Hr).
  eauto.
Qed.

Lemma collect_scores_load_raise flush fuel wd (w : world) (e : exn) :
  load_scores w = Raise e w -> collect_scores flush fuel wd w = Raise e w.
Proof. unfold collect_scores, bind. now intros ->. Qed.




Lemma row_of_table wd (rs : list JobRecord) (row : Row) :
  In row (map (with_location wd) (map scored rs)) ->
  description row = description_of (raw_description row) /\
  location row = wd ++ "/" ++ description row ++ ".pdb".
Proof.
  rewrite map_map, in_map_iff. intros (r & <- & _). split; reflexivity.
Qed.

Lemma table_descriptions wd (rs : list JobRecord) :
  map (fun r : Row => description r) (map (with_location wd) (map scored rs))
  = map description_of
      (map (fun r : Row => raw_description r) (map (with_location wd) (map scored rs))).
Proof. rewrite !map_map. reflexivity. Qed.

End Run.

(** * Sanity checks of the embedding *)

Example description_of_rosetta_name : description_of "r0001_foo_0001" = "foo_0001".
Proof. reflexivity. Qed.

Example fnmatch_record : Py.fnmatch "r0001_foo_score.json" "r*_*_score.json" = true.
Proof. reflexivity. Qed.

Example fnmatch_needs_two_underscores : Py.fnmatch "r0001_score.json" "r*_*_score.json" = false.
Proof. reflexivity. Qed.

Example fnmatch_shortest_pdb : Py.fnmatch "r.pdb" "r*.pdb" = true.
Proof. reflexivity. Qed.

Example split_ws_runs : Py.split_ws "  a b   cd " = ["a"; "b"; "cd"].
Proof. reflexivity. Qed.

Example readlines_universal :
  Py.readlines (String "a" (String Py.CR (String Py.LF "b"))) = [String "a" nl; "b"].
Proof. reflexivity. Qed.

Example replace_leftmost : Py.replace ".pdb" "" "a.pdb_b.pdbx" = "a_bx".
Proof. reflexivity. Qed.

(** A complete run on the names Rosetta writes. *)
Example run_foo :
  collect_scores idle 0 "wd"
    (fresh [("r0001_foo_score.json", record_file "r0001_foo_0001");
            ("r0001_foo_0001.pdb", artifact)])
  = Done [with_location "wd" scored_foo]
      {| fs := [("r0001_foo_score.json", record_file "r0001_foo_0001");
                ("foo_0001.pdb", artifact)];
         clock := 0;
         trace := [EvInfo 1; EvMove "r0001_foo_0001.pdb" "foo_0001.pdb"] |}.
Proof. reflexivity. Qed.

(** Run again on its own result, the record file is found again and
    the barrier waits for an artifact that no longer comes. *)
Example rerun_foo_polls :
  collect_scores idle 3 "wd"
    (fresh [("r0001_foo_score.json", record_file "r0001_foo_0001");
            ("foo_0001.pdb", artifact)])
  = Spin {| fs := [("r0001_foo_score.json", record_file "r0001_foo_0001");
                   ("foo_0001.pdb", artifact)];
            clock := 3;
            trace := [EvSleep 1; EvSleep 1; EvSleep 1] |}.
Proof. reflexivity. Qed.

(** The scenario of section 8: decoy ["0001_foo"] beside [r0001_foo.pdb]. *)
Example scenario_0001_foo :
  collect_scores idle 0 "wd"
    (fresh [("r0001_foo_score.json", record_file "0001_foo");
            ("r0001_foo.pdb", artifact)])
  = Raise (FileNotFoundError "0001_foo.pdb")
      {| fs := [("r0001_foo_score.json", record_file "0001_foo");
                ("r0001_foo.pdb", artifact)];
         clock := 0;
         trace := [EvInfo 1; EvMove "0001_foo.pdb" "_0001.pdb"] |}.
Proof. reflexivity. Qed.

(** * The claims *)

(** C1 (as amended): in every row of a table returned by
    [collect_scores], [description] is made of the tokens strictly
    between the first and the last underscore-delimited token of
    [raw_description], joined by ["_"], followed by ["_"] and the first
    token with every ["r"] deleted.  The last token is dropped: a name
    [ord_base_suf] gives [base_ord'], a name of one or two tokens gives
    ["_" ++ ord']; ["r0007_myprotein_design"] gives ["myprotein_0007"]
    and ["0001_foo"] gives ["_0001"]. *)
Theorem C1_description_rule flush fuel wd (w w' : world) (t : list Row) :
  collect_scores flush fuel wd w = Done t w' ->
  forall row, In row t ->
    description row
    = Py.join "_" (removelast (tl (tokens (raw_description row))))
      ++ "_" ++ delete_char "r" (hd "" (tokens (raw_description row)))
    /\ (forall ord base suf,
          has_char "_" ord = false -> has_char "_" suf = false ->
          raw_description row = ord ++ "_" ++ base ++ "_" ++ suf ->
          description row = base ++ "_" ++ delete_char "r" ord)
    /\ (forall ord suf,
          has_char "_" ord = false -> has_char "_" suf = false ->
          raw_description row = ord ++ "_" ++ suf ->
          description row = "_" ++ delete_char "r" ord)
    /\ (raw_description row = "r0007_myprotein_design" ->
        description row = "myprotein_0007")
    /\ (raw_description row = "0001_foo" -> description row = "_0001").
Proof.
  intros H row Hin.
  apply Run.collect_scores_table in H as (rs & _ & _ & ->).
  apply Run.row_of_table in Hin as [-> _].
  split; [apply Describe.description_tokens|].
  split; [intros ord base suf Ho Hs ->; now apply Describe.description_three|].
  split; [intros ord suf Ho Hs ->; now apply Describe.description_two|].
  split; intros ->; reflexivity.
Qed.

Lemma C1_description_rule_witness :
  description row_design
  = Py.join "_" (removelast (tl (tokens (raw_description row_design))))
    ++ "_" ++ delete_char "r" (hd "" (tokens (raw_description row_design))).
Proof.
  refine (proj1 (C1_description_rule idle 0 "wd" (fresh dir_design)
                   _ [row_design] _ row_design _)).
  - reflexivity.
  - left. reflexivity.
Defined.

(** C1 as worded fails: the row parsed from decoy
    ["r0007_myprotein_design"] has description ["myprotein_0007"], not
    ["myprotein_design_0007"]. *)
Lemma C1_spec_rule_counterexample :
  spec_description "r0007_myprotein_design" = "myprotein_design_0007" /\
  spec_description "0001_foo" = "foo_0001" /\
  ~ (forall flush fuel wd (w w' : world) (t : list Row),
       collect_scores flush fuel wd w = Done t w' ->
       forall row, In row t ->
         description row = spec_description (raw_description row)).
Proof.
  split; [reflexivity|]. split; [reflexivity|]. intros H.
  specialize (H idle 0 "wd" (fresh dir_design) _ [row_design] eq_refl
                row_design (or_introl eq_refl)).
  discriminate H.
Qed.

(** C2 (as amended): when the decoy values are pairwise distinct, all
    follow the naming convention ([r] + digits, at least one basename
    token, a final token) and all end in the same final token, the
    descriptions of the returned table are pairwise distinct. *)
Theorem C2_unique_descriptions flush fuel wd (w w' : world) (t : list Row) :
  collect_scores flush fuel wd w = Done t w' ->
  NoDup (map (fun r : Row => raw_description r) t) ->
  (forall row, In row t -> conventional (raw_description row) = true) ->
  (forall r1 r2, In r1 t -> In r2 t ->
     suffix (raw_description r1) = suffix (raw_description r2)) ->
  NoDup (map (fun r : Row => description r) t).
Proof.
  intros H Hnd Hconv Hsuf.
  apply Run.collect_scores_table in H as (rs & _ & _ & ->).
  rewrite Run.table_descriptions.
  apply NoDup_map_NoDup_ForallPairs; [|exact Hnd].
  intros a b Ha Hb E.
  apply in_map_iff in Ha as (ra & <- & Hra). apply in_map_iff in Hb as (rb & <- & Hrb).
  apply Describe.description_of_inj; auto.
Qed.

Lemma C2_unique_descriptions_witness :
  NoDup (map (fun r : Row => description r)
           (map (with_location "wd")
              (map scored [ {| decoy := "r0001_foo_0001"; fields := [("rmsd", "1.2")] |};
                            {| decoy := "r0002_foo_0001"; fields := [("rmsd", "1.2")] |} ]))).
Proof.
  refine (C2_unique_descriptions idle 0 "wd" (fresh dir_two_poses) _ _ _ _ _ _).
  - reflexivity.
  - simpl. repeat constructor; simpl; intuition discriminate.
  - simpl. intros row [<-|[<-|[]]]; reflexivity.
  - simpl. intros r1 r2 [<-|[<-|[]]] [<-|[<-|[]]]; reflexivity.
Defined.

(** C2 as worded fails: two distinct decoys that differ in their final
    token only get the same description. *)
Lemma C2_distinct_decoys_counterexample :
  ~ (forall flush fuel wd (w w' : world) (t : list Row),
       collect_scores flush fuel wd w = Done t w' ->
       NoDup (map (fun r : Row => raw_description r) t) ->
       NoDup (map (fun r : Row => description r) t)).
Proof.
  intros H.
  specialize (H idle 0 "wd" (fresh dir_two_suffixes) _ _ eq_refl).
  simpl in H.
  assert (Hnd : NoDup ["r0001_foo_0001"; "r0001_foo_0002"])
    by (repeat constructor; simpl; intuition discriminate).
  specialize (H Hnd). inversion H as [|? ? Hn _]. apply Hn. now left.
Qed.

(** C3: on a directory without any file matching [r*_*_score.json]
    the table built from no record has no column, and
    [collect_scores] leaves with [KeyError('raw_description')] instead
    of returning an empty table. *)
Theorem C3_no_record_files_raises flush fuel wd (w : world) :
  FS.glob (fs w) "r*_*_score.json" = [] ->
  collect_scores flush fuel wd w = Raise (KeyError "raw_description") w.
Proof.
  intros Hglob. apply Run.collect_scores_load_raise.
  rewrite Run.load_scores_eq, Hglob. reflexivity.
Qed.

Lemma C3_no_record_files_raises_witness :
  collect_scores idle 0 "wd" (fresh dir_reconciled)
  = Raise (KeyError "raw_description") (fresh dir_reconciled).
Proof.
  apply (C3_no_record_files_raises idle 0 "wd" (fresh dir_reconciled)).
  reflexivity.
Defined.




(** * Facts about the directory model *)

Module FSFacts.











End FSFacts.

(** * The readiness barrier *)

Module Barrier.

Lemma polls_0 flush (w : world) : polls flush 0 w = w.
Proof.
  unfold polls. cbn [flush_for repeat].
  rewrite Nat.add_0_r, app_nil_r. apply Run.world_eta.
Qed.

Lemma polls_S flush (k : nat) (w : world) :
  polls flush (S k) w = polls flush k (polls flush 1 w).
Proof.
  unfold polls. cbn [flush_for repeat fs clock trace].
  f_equal.
  - now rewrite Nat.add_1_r.
  - lia.
  - now rewrite <- app_assoc.
Qed.

Lemma sleep_1 flush (w : world) : sleep flush 1 w = Done tt (polls flush 1 w).
Proof. reflexivity. Qed.

Lemma wait_for_pdbs_spec flush (fuel n : nat) :
  forall w, exists k,
    k <= fuel /\
    (forall j, j < k -> pdb_count flush j w < n) /\
    ((k = fuel /\ pdb_count flush fuel w < n /\
      wait_for_pdbs flush fuel n w = Spin (polls flush fuel w))
     \/
     (n <= pdb_count flush k w /\
      wait_for_pdbs flush fuel n w = Done tt (polls flush k w))).
Proof.
  unfold pdb_count.
  induction fuel as [|fuel IH]; intros w.
  - exists 0. split; [lia|]. split; [lia|]. rewrite polls_0. cbn [wait_for_pdbs].
    destruct (Nat.ltb _ n) eqn:E.
    + left. apply Nat.ltb_lt in E. auto.
    + right. apply Nat.ltb_ge in E. auto.
  - cbn [wait_for_pdbs].
    destruct (Nat.ltb _ n) eqn:E.
    + apply Nat.ltb_lt in E.
      unfold bind. rewrite sleep_1.
      destruct (IH (polls flush 1 w)) as (k & Hk & Hlt & Hor).
      exists (S k). split; [lia|]. split.
      * intros [|j] Hj; [now rewrite polls_0 | rewrite polls_S; apply Hlt; lia].
      * destruct Hor as [(-> & Hc & ->)|(Hc & ->)]; [left | right].
        -- rewrite (polls_S flush fuel w). auto.
        -- rewrite (polls_S flush k w). auto.
    + apply Nat.ltb_ge in E. exists 0. split; [lia|]. split; [lia|].
      right. rewrite polls_0. auto.
Qed.

End Barrier.

(** C5: once the score table is built, [collect_scores] polls the
    number of [r*.pdb] entries against the number of rows.  It sleeps
    one second per poll and does nothing else while the count is
    smaller; the rename loop starts from the first polled state whose
    count reaches the row count.  When the count stays smaller the
    function is still polling however much fuel it is given: there is
    no bound on the wait and no exception. *)
Theorem C5_readiness_barrier flush fuel wd (w : world) (scores_df : list Scored) :
  load_scores w = Done scores_df w ->
  exists k,
    k <= fuel /\
    clock (polls flush k w) = clock w + k /\
    trace (polls flush k w) = (trace w ++ repeat (EvSleep 1) k)%list /\
    (forall j, j < k -> pdb_count flush j w < List.length scores_df) /\
    ((k = fuel /\ pdb_count flush fuel w < List.length scores_df /\
      collect_scores flush fuel wd w = Spin (polls flush fuel w))
     \/
     (List.length scores_df <= pdb_count flush k w /\
      collect_scores flush fuel wd w = rename_and_sweep wd scores_df (polls flush k w))).
Proof.
  intros Hl.
  destruct (Barrier.wait_for_pdbs_spec flush fuel (List.length scores_df) w)
    as (k & Hk & Hlt & Hor).
  exists k. split; [exact Hk|]. split; [reflexivity|]. split; [reflexivity|].
  split; [exact Hlt|].
  assert (Hcs : collect_scores flush fuel wd w
                = match wait_for_pdbs flush fuel (List.length scores_df) w with
                  | Done _ w1 => rename_and_sweep wd scores_df w1
                  | Raise e w1 => Raise e w1
                  | Spin w1 => Spin w1
                  end).
  { unfold collect_scores. unfold bind at 1. rewrite Hl. reflexivity. }
  rewrite Hcs.
  destruct Hor as [(E & Hc & Hw)|(Hc & Hw)]; rewrite Hw; [left | right].
  - repeat split; assumption.
  - split; [assumption | reflexivity].
Qed.

Lemma C5_readiness_barrier_witness :
  exists k,
    k <= 5 /\
    clock (polls late_flush k (fresh dir_awaiting)) = clock (fresh dir_awaiting) + k /\
    trace (polls late_flush k (fresh dir_awaiting))
    = (trace (fresh dir_awaiting) ++ repeat (EvSleep 1) k)%list /\
    (forall j, j < k ->
       pdb_count late_flush j (fresh dir_awaiting) < List.length [scored_foo]) /\
    ((k = 5 /\
      pdb_count late_flush 5 (fresh dir_awaiting) < List.length [scored_foo] /\
      collect_scores late_flush 5 "wd" (fresh dir_awaiting)
      = Spin (polls late_flush 5 (fresh dir_awaiting)))
     \/
     (List.length [scored_foo] <= pdb_count late_flush k (fresh dir_awaiting) /\
      collect_scores late_flush 5 "wd" (fresh dir_awaiting)
      = rename_and_sweep "wd" [scored_foo] (polls late_flush k (fresh dir_awaiting)))).
Proof.
  apply (C5_readiness_barrier late_flush 5 "wd" (fresh dir_awaiting) [scored_foo]).
  reflexivity.
Defined.

(** * The rename loop *)

Module Rename.
Import FSFacts.



End Rename.




(** * The sweep *)

Module Sweep.
Import PyFacts FSFacts.












End Sweep.




(** * Discovery order *)

Module Order.
Import FSFacts.







End Order.



(** * The clean-up of [Rosetta.run] *)

Module Cleanup.
Import FSFacts.











End Cleanup.






(** * Further properties: executables and commands *)

Module Commands.
Import PyFacts.

Lemma wild_star_cons (p : list Py.ptok) (c : ascii) (s : string) :
  Py.wild (Py.PStar :: p) (String c s)
  = Py.wild p (String c s) || Py.wild (Py.PStar :: p) s.
Proof. reflexivity. Qed.

Lemma wild_lit_cons (c c' : ascii) (p : list Py.ptok) (s : string) :
  Py.wild (Py.PLit c :: p) (String c' s) = Ascii.eqb c c' && Py.wild p s.
Proof. reflexivity. Qed.

Lemma wild_star_here (p : list Py.ptok) (s : string) :
  Py.wild p s = true -> Py.wild (Py.PStar :: p) s = true.
Proof.
  intros H. destruct s as [|c s].
  - cbn [Py.wild]. now rewrite H.
  - rewrite wild_star_cons. now rewrite H.
Qed.

Lemma wild_star_skip (p : list Py.ptok) (a b : string) :
  Py.wild (Py.PStar :: p) b = true -> Py.wild (Py.PStar :: p) (a ++ b) = true.
Proof.
  intros H. induction a as [|c a IH]; [exact H|].
  change (String c a ++ b) with (String c (a ++ b)).
  rewrite wild_star_cons, IH. apply orb_true_r.
Qed.

Lemma prefix_app (f b : string) : String.prefix f (f ++ b) = true.
Proof.
  induction f as [|c f IH]; simpl; [now destruct b|].
  destruct (ascii_dec c c); [exact IH | contradiction].
Qed.

Lemma prefix_split (f o : string) :
  String.prefix f o = true -> exists b, o = f ++ b.
Proof.
  revert o. induction f as [|c f IH]; intros o H.
  - now exists o.
  - destruct o as [|x o]; [discriminate|]. simpl in H.
    destruct (ascii_dec c x) as [->|]; [|discriminate].
    destruct (IH o H) as (b & ->). now exists b.
Qed.

(** [needle in hay] holds exactly when [hay] has [needle] somewhere
    inside. *)
Lemma contains_spec (f o : string) :
  contains f o = true <-> exists a b, o = a ++ f ++ b.
Proof.
  split.
  - induction o as [|x o IH]; cbn [contains]; intros H.
    + rewrite orb_false_r in H. apply prefix_split in H as (b & ->). now exists "", b.
    + apply orb_true_iff in H as [H|H].
      * apply prefix_split in H as (b & ->). now exists "", b.
      * destruct (IH H) as (a & b & ->). now exists (String x a), b.
  - intros (a & b & ->). induction a as [|x a IH].
    + cbn [append]. destruct (f ++ b) eqn:E; cbn [contains]; rewrite <- E, prefix_app;
        reflexivity.
    + change (String x a ++ f ++ b) with (String x (a ++ f ++ b)).
      cbn [contains]. rewrite IH. apply orb_true_r.
Qed.

Lemma mentions_forbidden_false (o : string) :
  mentions_forbidden (Some o) = false ->
  forall f, In f forbidden_options -> o <> "" -> contains f o = false.
Proof.
  intros H f Hf Ho. destruct o as [|c o]; [contradiction|].
  cbn [mentions_forbidden] in H.
  destruct (contains f (String c o)) eqn:E; [|reflexivity].
  assert (X : existsb (fun opt => contains opt (String c o)) forbidden_options = true)
    by (apply existsb_exists; eauto).
  congruence.
Qed.

Lemma all_digits_app (a b : string) :
  all_digits a = true -> all_digits b = true -> all_digits (a ++ b) = true.
Proof.
  intros Ha Hb. induction a as [|c a IH]; [exact Hb|]. simpl in *.
  apply andb_true_iff in Ha as [Hc Ha]. now rewrite Hc, IH.
Qed.

Lemma all_digits_zeros (n : nat) : all_digits (zeros n) = true.
Proof. induction n; simpl; auto. Qed.

Lemma all_digits_uint (d : Decimal.uint) :
  all_digits (NilEmpty.string_of_uint d) = true.
Proof. induction d; simpl; auto. Qed.

Lemma all_digits_str_nat (i : nat) : all_digits (str_nat i) = true.
Proof.
  unfold str_nat, NilZero.string_of_uint.
  destruct (Nat.to_uint i); try reflexivity; apply all_digits_uint.
Qed.

Lemma zfill_digits (w : nat) (s : string) :
  all_digits s = true -> zfill w s = zeros (w - String.length s) ++ s.
Proof.
  intros H. unfold zfill. destruct s as [|c s]; [reflexivity|].
  simpl in H. apply andb_true_iff in H as [Hc _].
  destruct c as [[] [] [] [] [] [] [] []]; try reflexivity; discriminate.
Qed.

Lemma all_digits_ordinal (w i : nat) : all_digits (zfill w (str_nat i)) = true.
Proof.
  rewrite zfill_digits by apply all_digits_str_nat.
  apply all_digits_app; [apply all_digits_zeros | apply all_digits_str_nat].
Qed.

(** Reading an ordinal back as a number. *)
Lemma decode_zero (s : string) :
  option_map Nat.of_uint (NilEmpty.uint_of_string (String "0" s))
  = option_map Nat.of_uint (NilEmpty.uint_of_string s).
Proof.
  cbn [NilEmpty.uint_of_string]. destruct (NilEmpty.uint_of_string s); reflexivity.
Qed.

Lemma decode_zeros (k : nat) (s : string) :
  option_map Nat.of_uint (NilEmpty.uint_of_string (zeros k ++ s))
  = option_map Nat.of_uint (NilEmpty.uint_of_string s).
Proof.
  induction k as [|k IH]; [reflexivity|].
  change (zeros (S k) ++ s) with (String "0" (zeros k ++ s)).
  now rewrite decode_zero.
Qed.

Lemma decode_str_nat (i : nat) :
  option_map Nat.of_uint (NilEmpty.uint_of_string (str_nat i)) = Some i.
Proof.
  unfold str_nat, NilZero.string_of_uint.
  pose proof (DecimalNat.Unsigned.of_to i) as H.
  destruct (Nat.to_uint i) eqn:E;
    try (rewrite NilEmpty.usu; cbn [option_map]; now rewrite H).
  cbn in H. subst i. reflexivity.
Qed.

Lemma ordinal_inj (w i j : nat) :
  zfill w (str_nat i) = zfill w (str_nat j) -> i = j.
Proof.
  rewrite !zfill_digits by apply all_digits_str_nat. intros H.
  apply (f_equal (fun s => option_map Nat.of_uint (NilEmpty.uint_of_string s))) in H.
  rewrite !decode_zeros, !decode_str_nat in H. now injection H.
Qed.

Lemma collect_length {A} (l : list (exn + A)) (r : list A) :
  collect l = inr r -> List.length r = List.length l.
Proof.
  revert r. induction l as [|[e|a] l IH]; intros r H; cbn [collect] in H.
  - now injection H as <-.
  - discriminate.
  - destruct (collect l) as [e|r']; [discriminate|]. injection H as <-.
    cbn [List.length]. now rewrite (IH r').
Qed.

Lemma flat_map_const_length {A B} (f : A -> list B) (k : nat) (l : list A) :
  (forall a, List.length (f a) = k) -> List.length (flat_map f l) = List.length l * k.
Proof.
  intros H. induction l as [|a l IH]; [reflexivity|].
  cbn [flat_map List.length]. rewrite length_app, H, IH. lia.
Qed.

End Commands.

(** X1: whatever [setup_executable] returns is an executable file,
    and it is the script path (only when no application is named),
    the application as given, or the application inside the script
    directory. *)
Theorem X1_setup_executable_sound
    (is_exec isdir : string -> bool) (script_path : string)
    (rosetta_application : option string) (p : string) :
  setup_executable is_exec isdir script_path rosetta_application = inr p ->
  is_exec p = true /\
  ((truthy rosetta_application = false /\ p = script_path) \/
   (exists app, rosetta_application = Some app /\ app <> "" /\
      (p = app \/
       (is_exec app = false /\ isdir script_path = true /\
        p = os_path_join script_path app)))).
Proof.
  unfold setup_executable. intros H.
  destruct rosetta_application as [[|c app]|].
  - destruct (is_exec script_path) eqn:E; [|discriminate].
    injection H as <-. split; [exact E|]. left. now split.
  - destruct (is_exec (String c app)) eqn:Ea.
    + injection H as <-. split; [exact Ea|]. right. exists (String c app).
      split; [reflexivity|]. split; [discriminate|]. now left.
    + destruct (isdir script_path) eqn:Ed; [|discriminate].
      destruct (is_exec (os_path_join script_path (String c app))) eqn:Ec; [|discriminate].
      injection H as <-. split; [exact Ec|]. right. exists (String c app).
      split; [reflexivity|]. split; [discriminate|]. right. auto.
  - destruct (is_exec script_path) eqn:E; [|discriminate].
    injection H as <-. split; [exact E|]. left. now split.
Qed.

Lemma X1_setup_executable_sound_witness :
  String.eqb "/opt/rosetta/bin/relax" "/opt/rosetta/bin/relax" = true /\
  ((truthy (Some "relax") = false /\ "/opt/rosetta/bin/relax" = "/opt/rosetta/bin") \/
   (exists app, Some "relax" = Some app /\ app <> "" /\
      ("/opt/rosetta/bin/relax" = app \/
       (String.eqb "/opt/rosetta/bin/relax" app = false /\
        String.eqb "/opt/rosetta/bin" "/opt/rosetta/bin" = true /\
        "/opt/rosetta/bin/relax" = os_path_join "/opt/rosetta/bin" app)))).
Proof.
  apply (X1_setup_executable_sound
           (String.eqb "/opt/rosetta/bin/relax") (String.eqb "/opt/rosetta/bin")
           "/opt/rosetta/bin" (Some "relax") "/opt/rosetta/bin/relax").
  reflexivity.
Defined.

(** X2: [setup_executable] fails with [ValueError] and nothing else,
    exactly when no application is named and the script path is not
    executable, or an application is named that is executable neither
    as given nor inside the script directory; an executable script
    path does not help once an application is named. *)
Theorem X2_setup_executable_failure
    (is_exec isdir : string -> bool) (script_path : string)
    (rosetta_application : option string) (e : exn) :
  setup_executable is_exec isdir script_path rosetta_application = inl e <->
  e = ValueError /\
  ((truthy rosetta_application = false /\ is_exec script_path = false) \/
   (exists app, rosetta_application = Some app /\ app <> "" /\
      is_exec app = false /\
      (isdir script_path = false \/ is_exec (os_path_join script_path app) = false))).
Proof.
  unfold setup_executable. split.
  - intros H. destruct rosetta_application as [[|c app]|].
    + destruct (is_exec script_path) eqn:E; [discriminate|]. injection H as <-. auto.
    + destruct (is_exec (String c app)) eqn:Ea; [discriminate|].
      destruct (isdir script_path) eqn:Ed.
      * destruct (is_exec (os_path_join script_path (String c app))) eqn:Ec; [discriminate|].
        injection H as <-. split; [reflexivity|]. right. exists (String c app).
        repeat split; auto. discriminate.
      * injection H as <-. split; [reflexivity|]. right. exists (String c app).
        repeat split; auto. discriminate.
    + destruct (is_exec script_path) eqn:E; [discriminate|]. injection H as <-. auto.
  - intros [-> [[Ht Hs]|(app & -> & Hne & Ha & Hor)]].
    + destruct rosetta_application as [[|c app]|]; try discriminate; now rewrite Hs.
    + destruct app as [|c app]; [contradiction|]. rewrite Ha.
      destruct Hor as [->|Hc]; [reflexivity|].
      rewrite Hc. now destruct (isdir script_path).
Qed.

(** X3: the score file that [write_cmd] tells Rosetta to write is,
    for every structure number and every pose path, a name that the
    pattern [r*_*_score.json] matches: it is what the overwrite
    clean-up of [run] removes and what [collect_scores] discovers. *)
Theorem X3_scorefile_name_is_record (i : nat) (pose_path : string) :
  is_record (scorefile_name i pose_path) = true.
Proof.
  unfold is_record, Py.fnmatch, scorefile_name.
  change (Py.pattern "r*_*_score.json")
    with (Py.PLit "r" :: Py.PStar :: Py.PLit "_" :: Py.PStar :: Py.pattern "_score.json").
  set (z := zfill 4 (str_nat i)). set (s := splitext_root (os_path_basename pose_path)).
  change ("r" ++ z ++ "_" ++ s ++ "_score.json")
    with (String "r" (z ++ String "_" (s ++ "_score.json"))).
  rewrite Commands.wild_lit_cons, Ascii.eqb_refl. cbn [andb].
  apply Commands.wild_star_skip, Commands.wild_star_here.
  rewrite Commands.wild_lit_cons, Ascii.eqb_refl. cbn [andb].
  apply Commands.wild_star_skip. reflexivity.
Qed.

(** X4: [write_cmd] hands out a command only when none of the
    forbidden option texts occurs anywhere inside [options] or
    [pose_options], be it as part of a longer word. *)
Theorem X4_write_cmd_rejects_forbidden parse app pose_path output_dir (i : nat)
    (overwrite : bool) (options pose_options : option string) (cmd : string) :
  write_cmd parse app pose_path output_dir i overwrite options pose_options = inr cmd ->
  forall f o a b,
    In f forbidden_options ->
    options = Some o \/ pose_options = Some o ->
    o <> a ++ f ++ b.
Proof.
  unfold write_cmd. intros H f o a b Hf Ho Heq.
  destruct (mentions_forbidden options || mentions_forbidden pose_options) eqn:E;
    [discriminate|].
  apply orb_false_iff in E as [E1 E2].
  assert (Hc : contains f o = true) by (apply Commands.contains_spec; eauto).
  assert (Hne : o <> "").
  { intros ->. destruct a; [|discriminate]. cbn [append] in Heq.
    destruct f; [|discriminate].
    cbn in Hf. repeat (destruct Hf as [Hf|Hf]; [discriminate|]). contradiction. }
  destruct Ho as [->| ->];
    [rewrite (Commands.mentions_forbidden_false o E1 f Hf Hne) in Hc
    |rewrite (Commands.mentions_forbidden_false o E2 f Hf Hne) in Hc]; discriminate.
Qed.

Lemma X4_write_cmd_rejects_forbidden_witness :
  "-ex1 -ex2" <> "-ex1 " ++ "-out:prefix" ++ " r_".
Proof.
  apply (X4_write_cmd_rejects_forbidden (fun _ _ => ([("ex1", "true")], ["ex2"]))
           "relax" "in/foo.pdb" "wd" 1 false (Some "-ex1 -ex2") None
           "relax -out:path:all wd -in:file:s in/foo.pdb -out:prefix r0001_ -out:file:scorefile r0001_foo_score.json -out:file:scorefile_format json -ex1=true  -ex2 ").
  - reflexivity.
  - cbn. auto.
  - left. reflexivity.
Defined.

(** X5: the structure number that [write_cmd] puts into the output
    prefix comes out of [collect_scores]' derivation as the end of the
    description: a decoy made of that prefix, the pose's stem and a
    final token is described as stem, underscore, zero-padded number.
    Two such decoys get the same description only when they agree in
    both stem and number. *)
Theorem X5_ordinal_becomes_suffix (i j : nat) (stem1 stem2 suf1 suf2 : string) :
  has_char "_" suf1 = false -> has_char "_" suf2 = false ->
  description_of (prefixed_decoy i stem1 suf1) = stem1 ++ "_" ++ zfill 4 (str_nat i)
  /\ (description_of (prefixed_decoy i stem1 suf1)
       = description_of (prefixed_decoy j stem2 suf2)
       <-> i = j /\ stem1 = stem2).
Proof.
  intros H1 H2.
  assert (D : forall k stem suf, has_char "_" suf = false ->
            description_of (prefixed_decoy k stem suf) = stem ++ "_" ++ zfill 4 (str_nat k)).
  { intros k stem suf Hs. pose proof (Commands.all_digits_ordinal 4 k) as Hd.
    unfold prefixed_decoy. set (z := zfill 4 (str_nat k)) in *.
    change ("r" ++ z ++ "_" ++ stem ++ "_" ++ suf)
      with (String "r" z ++ "_" ++ stem ++ "_" ++ suf).
    rewrite Describe.description_three;
      [|simpl; now apply Describe.all_digits_nosep|exact Hs].
    cbn [delete_char]. simpl Ascii.eqb. cbv iota.
    now rewrite PyFacts.delete_char_digits. }
  split; [now apply D|]. rewrite !D by assumption. split.
  - intros E.
    change (stem1 ++ String "_" (zfill 4 (str_nat i))
            = stem2 ++ String "_" (zfill 4 (str_nat j))) in E.
    apply Describe.app_sep_inj in E as [Es Ez];
      try (apply Describe.all_digits_nosep, Commands.all_digits_ordinal).
    split; [now apply Commands.ordinal_inj in Ez | exact Es].
  - now intros [-> ->].
Qed.

Lemma X5_ordinal_becomes_suffix_witness :
  description_of (prefixed_decoy 7 "my_protein" "0001")
  = "my_protein" ++ "_" ++ zfill 4 (str_nat 7)
  /\ (description_of (prefixed_decoy 7 "my_protein" "0001")
       = description_of (prefixed_decoy 12 "my_protein" "0001")
       <-> 7 = 12 /\ "my_protein" = "my_protein").
Proof.
  apply (X5_ordinal_becomes_suffix 7 12 "my_protein" "my_protein" "0001" "0001");
    reflexivity.
Defined.

(** X6: when the command list of [run] can be built it holds
    [nstruct] commands for every pose that has options paired with it;
    and a forbidden text in the common [options] makes the whole list
    fail as soon as there is one command to write. *)
Theorem X6_build_cmds_count parse rosetta_exec work_dir (overwrite : bool)
    (options : option string) (nstruct : nat)
    (poses : list string) (pose_options : list (option string)) :
  (forall cmds,
     build_cmds parse rosetta_exec work_dir overwrite options nstruct poses pose_options
     = inr cmds ->
     List.length cmds
     = Nat.min (List.length poses) (List.length pose_options) * nstruct)
  /\ (mentions_forbidden options = true ->
      0 < nstruct -> poses <> [] -> pose_options <> [] ->
      build_cmds parse rosetta_exec work_dir overwrite options nstruct poses pose_options
      = inl (KeyError "forbidden_options")).
Proof.
  unfold build_cmds. split.
  - intros cmds H. apply Commands.collect_length in H. rewrite H.
    rewrite (Commands.flat_map_const_length _ nstruct).
    + now rewrite length_combine.
    + intros a. now rewrite length_map, length_seq.
  - intros Hf Hn Hp Ho.
    destruct poses as [|p poses]; [contradiction|].
    destruct pose_options as [|po pose_options]; [contradiction|].
    destruct nstruct as [|n]; [lia|].
    cbn [combine flat_map seq map app fst snd collect].
    unfold write_cmd at 1. rewrite Hf. reflexivity.
Qed.

(** * Further properties: chains, sequences and the scorefile cleaner *)

Module Edits.

Lemma column_length (poses : list pose_row) (col : string) (l : list string) :
  column poses col = inr l -> List.length l = List.length poses.
Proof.
  revert l. induction poses as [|p poses IH]; intros l H; cbn [column] in H.
  - now injection H as <-.
  - destruct (cell p col); [|discriminate].
    destruct (column poses col) as [e|vs]; [discriminate|]. injection H as <-.
    cbn [List.length]. now rewrite (IH vs).
Qed.

Lemma column_cells (poses : list pose_row) (col : string) (l : list string) :
  column poses col = inr l <-> Forall2 (fun pose c => cell pose col = Some c) poses l.
Proof.
  revert l. induction poses as [|p poses IH]; intros l; cbn [column].
  - split.
    + intros [= <-]. constructor.
    + intros H. now inversion H.
  - split.
    + destruct (cell p col) as [v|] eqn:E; [|discriminate].
      destruct (column poses col) as [e|vs] eqn:C; [discriminate|]. intros [= <-].
      constructor; [exact E | now apply IH].
    + intros H. inversion H as [|? c ? vs Hc Hrest]; subst. rewrite Hc.
      apply IH in Hrest. now rewrite Hrest.
Qed.

Lemma str_times_join (sep s : string) (k : nat) :
  s ++ str_times (sep ++ s) k = Py.join sep (repeat s (S k)).
Proof.
  induction k as [|k IH].
  - cbn [str_times repeat Py.join]. induction s; simpl; congruence.
  - change (repeat s (S (S k))) with (s :: repeat s (S k)).
    rewrite PyFacts.join_cons by discriminate. rewrite <- IH.
    cbn [str_times]. now rewrite PyFacts.append_assoc.
Qed.

Lemma split_ws_fields (s : string) : Forall (fun t => is_field t = true) (Py.split_ws s).
Proof.
  induction s as [|c s IH]; cbn [Py.split_ws]; [constructor|].
  destruct (Py.isspace c) eqn:Ec; [exact IH|].
  destruct (Py.starts_token s) eqn:Es.
  - destruct (Py.split_ws s) as [|t ts]; inversion IH; subst.
    + repeat constructor. unfold is_field. simpl. now rewrite Ec.
    + constructor; [|assumption]. unfold is_field in *. simpl.
      rewrite Ec. simpl.
      match goal with H : _ && _ = true |- _ => apply andb_true_iff in H as [_ H] end.
      assumption.
  - constructor; [|exact IH]. unfold is_field. simpl. now rewrite Ec.
Qed.

End Edits.

(** X7: whenever [setup_chain_list] returns, it returns one chain per
    pose. *)
Theorem X7_setup_chain_list_length (arg : chain_arg) (poses : list pose_row)
    (l : list string) :
  setup_chain_list arg poses = inr l -> List.length l = List.length poses.
Proof.
  unfold setup_chain_list. destruct arg as [s|l'|].
  - destruct (Nat.eqb (String.length s) 1).
    + intros [= <-]. apply length_map.
    + apply Edits.column_length.
  - destruct (Nat.eqb (List.length l') (List.length poses)) eqn:E; [|discriminate].
    intros [= <-]. now apply Nat.eqb_eq.
  - discriminate.
Qed.

Lemma X7_setup_chain_list_length_witness :
  List.length ["B"; "C"] = List.length pose_rows_example.
Proof.
  apply (X7_setup_chain_list_length (ChainStr "chain_col") pose_rows_example).
  reflexivity.
Defined.

(** X8: for a string argument [setup_chain_list] is [parse_chain]
    applied to every pose: it returns the list of what [parse_chain]
    returns pose by pose, and returns at all only if [parse_chain]
    does for every pose. *)
Theorem X8_setup_chain_list_is_parse_chain (s : string) (poses : list pose_row)
    (l : list string) :
  setup_chain_list (ChainStr s) poses = inr l <->
  Forall2 (fun pose c => parse_chain (ChainStr s) pose = inr c) poses l.
Proof.
  unfold setup_chain_list, parse_chain.
  destruct (Nat.eqb (String.length s) 1).
  - split.
    + intros [= <-]. induction poses; constructor; auto.
    + intros H. f_equal. induction H as [|p c ps cs Hc _ IH]; [reflexivity|].
      injection Hc as <-. cbn [map]. now rewrite IH.
  - rewrite Edits.column_cells. split; intros H.
    + induction H as [|p c ps cs Hc _ IH]; constructor; [now rewrite Hc | exact IH].
    + induction H as [|p c ps cs Hc _ IH]; constructor; [|exact IH].
      destruct (cell p s); [now injection Hc as -> | discriminate].
Qed.

(** X9: [multimerize] writes the sequence [n_protomers] times with
    the separator in between, and the sequence alone when the count is
    one or less. *)
Theorem X9_multimer_seq (sep : option string) (orig_seq : string) (n_protomers : Z) :
  ((1 <= n_protomers)%Z ->
   multimer_seq sep orig_seq n_protomers
   = Py.join (fmt sep) (repeat orig_seq (Z.to_nat n_protomers)))
  /\ ((n_protomers <= 1)%Z -> multimer_seq sep orig_seq n_protomers = orig_seq).
Proof.
  unfold multimer_seq. split; intros H.
  - replace (Z.to_nat n_protomers) with (S (Z.to_nat (n_protomers - 1))) by lia.
    apply Edits.str_times_join.
  - replace (Z.to_nat (n_protomers - 1)) with 0%nat by lia.
    cbn [str_times]. induction orig_seq; simpl; congruence.
Qed.

(** X10: what [clean_rosetta_scorefile] writes is rectangular: all
    written lines have the same number of fields, every field is a
    non-empty text without whitespace, and the first line after the
    dropped one is always the first line written. *)
Theorem X10_cleaned_scorefile_rectangular (path_to_file out_path : string)
    (fs : files) (text : string) :
  fs path_to_file = Some text ->
  exists kept fs',
    clean_rosetta_scorefile path_to_file out_path fs = inr (out_path, fs') /\
    fs' out_path = Some (Py.join nl (map (Py.join ",") kept)) /\
    (forall f g, In f kept -> In g kept -> List.length f = List.length g) /\
    (forall f t, In f kept -> In t f -> is_field t = true) /\
    (forall h rest,
       map Py.split_ws (tl (Py.readlines text)) = h :: rest ->
       exists kept', kept = h :: kept').
Proof.
  intros Hin. exists (clean_lines text), (write fs out_path
    (Py.join nl (map (Py.join ",") (clean_lines text)))).
  split; [unfold clean_rosetta_scorefile; now rewrite Hin|].
  split; [unfold write; now rewrite String.eqb_refl|].
  unfold clean_lines. rewrite PyFacts.slice_from_1.
  set (rest := map Py.split_ws (tl (Py.readlines text))).
  split; [|split].
  - intros f g Hf Hg. apply filter_In in Hf as [_ Hf]. apply filter_In in Hg as [_ Hg].
    apply Nat.eqb_eq in Hf, Hg. congruence.
  - intros f t Hf Ht. apply filter_In in Hf as [Hf _].
    unfold rest in Hf. apply in_map_iff in Hf as (line & <- & _).
    pose proof (Edits.split_ws_fields line) as HF. rewrite Forall_forall in HF. auto.
  - intros h rest' ->. cbn [nth filter]. rewrite Nat.eqb_refl. eauto.
Qed.

Lemma X10_cleaned_scorefile_rectangular_witness :
  exists kept fs',
    clean_rosetta_scorefile "in.sc" "out.csv" (one_file "in.sc" scorefile_text)
    = inr ("out.csv", fs') /\
    fs' "out.csv" = Some (Py.join nl (map (Py.join ",") kept)) /\
    (forall f g, In f kept -> In g kept -> List.length f = List.length g) /\
    (forall f t, In f kept -> In t f -> is_field t = true) /\
    (forall h rest,
       map Py.split_ws (tl (Py.readlines scorefile_text)) = h :: rest ->
       exists kept', kept = h :: kept').
Proof.
  apply (X10_cleaned_scorefile_rectangular "in.sc" "out.csv"
           (one_file "in.sc" scorefile_text) scorefile_text).
  reflexivity.
Defined.

(** * Further properties of [collect_scores] *)

Module Frame.
Import FSFacts.






















Lemma flush_for_idle (k t : nat) (d : dir) : flush_for idle k t d = d.
Proof. revert t d. induction k as [|k IH]; intros t d; [reflexivity|]. apply IH. Qed.

Lemma polls_idle_fs (k : nat) (w : world) : fs (polls idle k w) = fs w.
Proof. apply flush_for_idle. Qed.



End Frame.





(** X13: when fewer [r*.pdb] entries are present than the score table
    has rows and nobody else writes, [collect_scores] never gets past
    the barrier: whatever the fuel it is still polling, the directory
    untouched. *)
Theorem X13_barrier_hangs_without_writer fuel wd (w : world) (scores_df : list Scored) :
  load_scores w = Done scores_df w ->
  List.length (FS.glob (fs w) "r*.pdb") < List.length scores_df ->
  collect_scores idle fuel wd w = Spin (polls idle fuel w) /\
  fs (polls idle fuel w) = fs w /\
  clock (polls idle fuel w) = clock w + fuel.
Proof.
  intros Hl Hlt. split; [|split; [apply Frame.polls_idle_fs | reflexivity]].
  unfold collect_scores. unfold bind at 1. rewrite Hl. unfold bind.
  destruct (Barrier.wait_for_pdbs_spec idle fuel (List.length scores_df) w)
    as (k & _ & _ & [(_ & _ & ->)|(Hc & _)]); [reflexivity|].
  unfold pdb_count in Hc. rewrite Frame.polls_idle_fs in Hc. lia.
Qed.

Lemma X13_barrier_hangs_without_writer_witness :
  collect_scores idle 7 "wd" (fresh dir_awaiting) = Spin (polls idle 7 (fresh dir_awaiting)) /\
  fs (polls idle 7 (fresh dir_awaiting)) = fs (fresh dir_awaiting) /\
  clock (polls idle 7 (fresh dir_awaiting)) = clock (fresh dir_awaiting) + 7.
Proof.
  apply (X13_barrier_hangs_without_writer 7 "wd" (fresh dir_awaiting) [scored_foo]).
  - reflexivity.
  - simpl. lia.
Defined.

(** * A run on conventional names *)

Module Happy.
Import FSFacts.

























End Happy.




